(** * simple_live_fixes: the startup patch applier

    A shallow embedding of [simple_live_fixes.py].  The module is a list of
    best-effort adjustments of process-global configuration, each wrapped in
    its own [try]/[except].  The embedding keeps that shape: the process-global
    configuration is an explicit state, the interpreter's surroundings
    (installed packages, platform) are a read-only host description, and
    Python's exceptions are an outcome threaded through a small
    reader/state/exception monad. *)

From stdpp Require Import base strings gmap list pretty.

Local Open Scope string_scope.

(** ** Exceptions and outcomes *)

(** Exceptions as the handlers of the module tell them apart:
    [except ImportError] (which also takes [ModuleNotFoundError]) and
    [except Exception].  Everything modelled here derives from [Exception];
    interpreter-exit signals ([KeyboardInterrupt], [SystemExit]) are not
    failures of a routine and are outside the model. *)
Inductive exn : Type :=
  | ImportError (msg : string)
  | OtherException (cls : string) (msg : string).

Definition is_ImportError (e : exn) : bool :=
  match e with
  | ImportError _ => true
  | OtherException _ _ => false
  end.

(** [str(e)], as the f-strings of the handlers format it. *)
Definition str_exn (e : exn) : string :=
  match e with
  | ImportError msg => msg
  | OtherException _ msg => msg
  end.

Inductive outcome (A : Type) : Type :=
  | Returns (a : A)
  | Raises (e : exn).
Arguments Returns {A} a.
Arguments Raises {A} e.

(** ** The host: what the interpreter finds around it *)

(** An optional third-party package: importable, not installed
    ([import] raises [ImportError]), or installed but failing at import
    with the given exception. *)
Inductive package : Type :=
  | Installed
  | NotInstalled
  | Broken (e : exn).

(** The library calls the routines make, apart from [os] and [logging]. *)
Inductive libcall : Type :=
  | warnings_filterwarnings
  | platform_system
  | asyncio_set_event_loop_policy
  | np_seterr
  | gc_collect
  | gc_set_threshold.

Record Host : Type := {
  pandas : package;
  numpy : package;
  system_name : string;                      (* platform.system() *)
  has_WindowsProactorEventLoopPolicy : bool; (* hasattr(asyncio, ...) *)
  faults : libcall → option exn              (* a library call that fails *)
}.

(** ** The process-global configuration the routines write *)

Inductive level : Type := DEBUG | INFO | WARNING.

Record warning_filter : Type := {
  wf_action : string;
  wf_message : option string;
  wf_category : string;
  wf_module : option string
}.

Global Instance warning_filter_eq_dec : EqDecision warning_filter.
Proof. solve_decision. Defined.

Inductive loop_policy : Type :=
  | DefaultEventLoopPolicy
  | WindowsProactorEventLoopPolicy
  | CustomEventLoopPolicy (name : string).

Inductive err_mode : Type :=
  | err_ignore | err_warn | err_raise | err_call | err_print | err_log.

Record np_errstate : Type := {
  err_divide : err_mode;
  err_over : err_mode;
  err_under : err_mode;
  err_invalid : err_mode
}.

(** The five adjustment routines, as names in the call trace. *)
Inductive routine : Type :=
  | r_fix_pandas_warnings
  | r_fix_asyncio_warnings
  | r_fix_binance_client_timeouts
  | r_fix_signal_calculations
  | r_optimize_memory_usage.

Record Proc : Type := {
  environ : gmap string string;            (* os.environ *)
  warning_filters : list warning_filter;   (* warnings.filters *)
  event_loop_policy : loop_policy;
  numpy_errstate : np_errstate;
  gc_threshold : Z * Z * Z;
  gc_collections : nat;                    (* forced full collections *)
  log : list (level * string);             (* records handed to the logger *)
  calls : list routine                     (* ghost: routines entered, in order *)
}.

Definition set_environ (f : gmap string string → gmap string string) (p : Proc) : Proc :=
  {| environ := f (environ p); warning_filters := warning_filters p;
     event_loop_policy := event_loop_policy p; numpy_errstate := numpy_errstate p;
     gc_threshold := gc_threshold p; gc_collections := gc_collections p;
     log := log p; calls := calls p |}.

Definition set_warning_filters (f : list warning_filter → list warning_filter) (p : Proc) : Proc :=
  {| environ := environ p; warning_filters := f (warning_filters p);
     event_loop_policy := event_loop_policy p; numpy_errstate := numpy_errstate p;
     gc_threshold := gc_threshold p; gc_collections := gc_collections p;
     log := log p; calls := calls p |}.

Definition set_event_loop_policy (pol : loop_policy) (p : Proc) : Proc :=
  {| environ := environ p; warning_filters := warning_filters p;
     event_loop_policy := pol; numpy_errstate := numpy_errstate p;
     gc_threshold := gc_threshold p; gc_collections := gc_collections p;
     log := log p; calls := calls p |}.

Definition set_numpy_errstate (f : np_errstate → np_errstate) (p : Proc) : Proc :=
  {| environ := environ p; warning_filters := warning_filters p;
     event_loop_policy := event_loop_policy p; numpy_errstate := f (numpy_errstate p);
     gc_threshold := gc_threshold p; gc_collections := gc_collections p;
     log := log p; calls := calls p |}.

Definition set_gc_threshold (t : Z * Z * Z) (p : Proc) : Proc :=
  {| environ := environ p; warning_filters := warning_filters p;
     event_loop_policy := event_loop_policy p; numpy_errstate := numpy_errstate p;
     gc_threshold := t; gc_collections := gc_collections p;
     log := log p; calls := calls p |}.

Definition bump_gc_collections (p : Proc) : Proc :=
  {| environ := environ p; warning_filters := warning_filters p;
     event_loop_policy := event_loop_policy p; numpy_errstate := numpy_errstate p;
     gc_threshold := gc_threshold p; gc_collections := S (gc_collections p);
     log := log p; calls := calls p |}.

Definition add_log (r : level * string) (p : Proc) : Proc :=
  {| environ := environ p; warning_filters := warning_filters p;
     event_loop_policy := event_loop_policy p; numpy_errstate := numpy_errstate p;
     gc_threshold := gc_threshold p; gc_collections := gc_collections p;
     log := log p ++ [r]; calls := calls p |}.

Definition add_call (r : routine) (p : Proc) : Proc :=
  {| environ := environ p; warning_filters := warning_filters p;
     event_loop_policy := event_loop_policy p; numpy_errstate := numpy_errstate p;
     gc_threshold := gc_threshold p; gc_collections := gc_collections p;
     log := log p; calls := calls p ++ [r] |}.

(** ** The monad of Python statements *)

(** A statement reads the host, transforms the process state and either
    returns or raises; what it wrote before raising stays written. *)
Definition M (A : Type) : Type := Host → Proc → outcome A * Proc.

Global Instance M_ret : MRet M := λ A a _ p, (Returns a, p).

Global Instance M_bind : MBind M := λ A B k m h p,
  match m h p with
  | (Returns a, p') => k a h p'
  | (Raises e, p') => (Raises e, p')
  end.

Definition raise {A : Type} (e : exn) : M A := λ _ p, (Raises e, p).

Definition modify (f : Proc → Proc) : M unit := λ _ p, (Returns (), f p).

Definition ask {A : Type} (f : Host → A) : M A := λ h p, (Returns (f h), p).

Definition get {A : Type} (f : Proc → A) : M A := λ _ p, (Returns (f p), p).

(** [try: body except ...: handler]: the handler sees the exception and the
    state the body left behind.  A handler that does not take the exception
    re-raises it. *)
Definition try_except {A : Type} (body : M A) (handler : exn → M A) : M A := λ h p,
  match body h p with
  | (Returns a, p') => (Returns a, p')
  | (Raises e, p') => handler e h p'
  end.

(** A library call: fails if the host says so, otherwise has its effect. *)
Definition lib {A : Type} (c : libcall) (effect : M A) : M A := λ h p,
  match faults h c with
  | Some e => (Raises e, p)
  | None => effect h p
  end.

(** ** The library operations the module uses *)

Definition logger_debug (msg : string) : M unit := modify (add_log (DEBUG, msg)).
Definition logger_info (msg : string) : M unit := modify (add_log (INFO, msg)).
Definition logger_warning (msg : string) : M unit := modify (add_log (WARNING, msg)).

(** [import pkg] of an optional package. *)
Definition import_optional (name : string) (pkg : Host → package) : M unit :=
  found ← ask pkg;
  match found with
  | Installed => mret ()
  | NotInstalled => raise (ImportError ("No module named '" ++ name ++ "'"))
  | Broken e => raise e
  end.

(** [warnings.filterwarnings]: the filter goes to the front of the list, and
    an equal filter already in the list is dropped first. *)
Definition filterwarnings (f : warning_filter) : M unit :=
  lib warnings_filterwarnings
    (modify (set_warning_filters (λ fs, f :: filter (λ g, g ≠ f) fs))).

Definition platform_system_ : M string :=
  lib platform_system (ask system_name).

Definition asyncio_set_event_loop_policy_ (pol : loop_policy) : M unit :=
  lib asyncio_set_event_loop_policy (modify (set_event_loop_policy pol)).

(** [os.getenv] reads the mapping [os.environ]; [None] when unset. *)
Definition os_getenv (k : string) : M (option string) := get (λ p, environ p !! k).

(** [os.environ[k] = v]. *)
Definition os_environ_set (k v : string) : M unit := modify (set_environ (<[k := v]>)).

(** [not x] for [x] an optional string: [None] and the empty string are falsy. *)
Definition py_not (x : option string) : bool :=
  match x with
  | None => true
  | Some EmptyString => true
  | Some (String _ _) => false
  end.

(** [np.seterr(divide='ignore', invalid='ignore')]. *)
Definition np_seterr_ignore : M unit :=
  lib np_seterr
    (modify (set_numpy_errstate (λ s,
       {| err_divide := err_ignore; err_over := err_over s;
          err_under := err_under s; err_invalid := err_ignore |}))).

Definition gc_collect_ : M unit := lib gc_collect (modify bump_gc_collections).

Definition gc_set_threshold_ (t : Z * Z * Z) : M unit :=
  lib gc_set_threshold (modify (set_gc_threshold t)).

(** ** The five adjustment routines *)

Definition enter (r : routine) : M unit := modify (add_call r).

Definition fix_pandas_warnings : M unit :=
  enter r_fix_pandas_warnings;;
  try_except
    (import_optional "pandas" pandas;;
     filterwarnings {| wf_action := "ignore"; wf_message := None;
                       wf_category := "FutureWarning"; wf_module := Some "pandas" |};;
     filterwarnings {| wf_action := "ignore"; wf_message := Some ".*DataFrame.fillna.*";
                       wf_category := "Warning"; wf_module := None |};;
     filterwarnings {| wf_action := "ignore"; wf_message := Some ".*Series.fillna.*";
                       wf_category := "Warning"; wf_module := None |};;
     logger_debug "✅ Pandas warnings suppressed")
    (λ e, if is_ImportError e
          then logger_debug "⚠️ Pandas not available for warning fixes"
          else logger_debug ("⚠️ Failed to fix pandas warnings: " ++ str_exn e)).

Definition fix_asyncio_warnings : M unit :=
  enter r_fix_asyncio_warnings;;
  try_except
    (sys ← platform_system_;
     if decide (sys = "Windows")
     then if_proactor ← ask has_WindowsProactorEventLoopPolicy;
          if if_proactor : bool
          then asyncio_set_event_loop_policy_ WindowsProactorEventLoopPolicy;;
               logger_debug "✅ Windows asyncio event loop policy set"
          else mret ()
     else mret ())
    (λ e, logger_debug ("⚠️ Failed to fix asyncio warnings: " ++ str_exn e)).

Definition fix_binance_client_timeouts : M unit :=
  enter r_fix_binance_client_timeouts;;
  try_except
    (timeout ← os_getenv "BINANCE_API_TIMEOUT";
     (if py_not timeout then os_environ_set "BINANCE_API_TIMEOUT" "30" else mret ());;
     retries ← os_getenv "BINANCE_MAX_RETRIES";
     (if py_not retries then os_environ_set "BINANCE_MAX_RETRIES" "3" else mret ());;
     logger_debug "✅ Binance client timeout settings optimized")
    (λ e, logger_debug ("⚠️ Failed to optimize Binance timeouts: " ++ str_exn e)).

Definition fix_signal_calculations : M unit :=
  enter r_fix_signal_calculations;;
  try_except
    (import_optional "numpy" numpy;;
     np_seterr_ignore;;
     logger_debug "✅ Signal calculation error handling improved")
    (λ e, if is_ImportError e
          then logger_debug "⚠️ NumPy not available for signal fixes"
          else logger_debug ("⚠️ Failed to fix signal calculations: " ++ str_exn e)).

Definition optimize_memory_usage : M unit :=
  enter r_optimize_memory_usage;;
  try_except
    (gc_collect_;;
     gc_set_threshold_ (700, 10, 10)%Z;;
     logger_debug "✅ Memory usage optimizations applied")
    (λ e, logger_debug ("⚠️ Failed to optimize memory usage: " ++ str_exn e)).

(** ** The two entry points *)

Definition apply_fixes : M unit :=
  try_except
    (fix_pandas_warnings;;
     fix_asyncio_warnings;;
     fix_binance_client_timeouts;;
     fix_signal_calculations;;
     optimize_memory_usage;;
     logger_info "✅ All simple live fixes applied successfully")
    (λ e, logger_warning ("⚠️ Error applying some live fixes: " ++ str_exn e)).

(** One [try: routine(); fixes[key] = True / except Exception: pass] block:
    the dictionary is updated only if the routine returned. *)
Definition record_fix (routine_call : M unit) (key : string)
    (fixes : gmap string bool) : M (gmap string bool) :=
  try_except
    (routine_call;; mret (<[key := true]> fixes))
    (λ _, mret fixes).

Definition initial_fixes : gmap string bool :=
  <["pandas_warnings" := false]>
  (<["asyncio_warnings" := false]>
  (<["binance_timeouts" := false]>
  (<["signal_calculations" := false]>
  (<["memory_optimization" := false]> ∅)))).

Definition get_fix_status : M (gmap string bool) :=
  fixes ← record_fix fix_pandas_warnings "pandas_warnings" initial_fixes;
  fixes ← record_fix fix_asyncio_warnings "asyncio_warnings" fixes;
  fixes ← record_fix fix_binance_client_timeouts "binance_timeouts" fixes;
  fixes ← record_fix fix_signal_calculations "signal_calculations" fixes;
  fixes ← record_fix optimize_memory_usage "memory_optimization" fixes;
  mret fixes.

(** ** Concrete hosts and processes, for running the model *)

Definition no_faults : libcall → option exn := λ _, None.

(** A non-Windows host with neither optional package installed. *)
Definition bare_linux : Host :=
  {| pandas := NotInstalled; numpy := NotInstalled; system_name := "Linux";
     has_WindowsProactorEventLoopPolicy := false; faults := no_faults |}.

(** A non-Windows host with numpy but without pandas. *)
Definition linux_numpy : Host :=
  {| pandas := NotInstalled; numpy := Installed; system_name := "Linux";
     has_WindowsProactorEventLoopPolicy := false; faults := no_faults |}.

(** A host where the collector cannot be run. *)
Definition linux_gc_broken : Host :=
  {| pandas := NotInstalled; numpy := NotInstalled; system_name := "Linux";
     has_WindowsProactorEventLoopPolicy := false;
     faults := λ c, match c with
                    | gc_collect => Some (OtherException "RuntimeError" "gc unavailable")
                    | _ => None
                    end |}.

(** A Windows host with both packages, where [np.seterr] is missing. *)
Definition windows_partial : Host :=
  {| pandas := Installed; numpy := Installed; system_name := "Windows";
     has_WindowsProactorEventLoopPolicy := true;
     faults := λ c, match c with
                    | np_seterr =>
                        Some (OtherException "AttributeError"
                                "module 'numpy' has no attribute 'seterr'")
                    | _ => None
                    end |}.

Definition default_errstate : np_errstate :=
  {| err_divide := err_warn; err_over := err_warn;
     err_under := err_ignore; err_invalid := err_warn |}.

(** A process at interpreter start with the given environment. *)
Definition fresh_proc (env : gmap string string) : Proc :=
  {| environ := env; warning_filters := []; event_loop_policy := DefaultEventLoopPolicy;
     numpy_errstate := default_errstate; gc_threshold := (700, 10, 10)%Z;
     gc_collections := 0; log := []; calls := [] |}.

Definition user_env : gmap string string :=
  <["BINANCE_API_TIMEOUT" := "99"]> (<["PATH" := "/usr/bin"]> ∅).

Definition fix_names : gset string :=
  {[ "pandas_warnings"; "asyncio_warnings"; "binance_timeouts";
     "signal_calculations"; "memory_optimization" ]}.

Definition apply_order : list routine :=
  [ r_fix_pandas_warnings; r_fix_asyncio_warnings; r_fix_binance_client_timeouts;
    r_fix_signal_calculations; r_optimize_memory_usage ].

(** The value a timeout variable is to have after the defaults routine, from
    the value it had before: the default if it was unset or empty, its old
    value otherwise. *)
Definition defaulted (before : option string) (dflt : string) : option string :=
  match before with
  | None => Some dflt
  | Some EmptyString => Some dflt
  | Some (String c s) => Some (String c s)
  end.

(** [if not os.getenv(k): os.environ[k] = v] on the environment alone. *)
Definition setdefault_env (k v : string) (env : gmap string string) : gmap string string :=
  if py_not (env !! k) then <[k := v]> env else env.

Definition binance_defaults (env : gmap string string) : gmap string string :=
  setdefault_env "BINANCE_MAX_RETRIES" "3" (setdefault_env "BINANCE_API_TIMEOUT" "30" env).

(** The dictionary of [get_fix_status] with every flag set. *)
Definition all_fixed : gmap string bool :=
  <["memory_optimization" := true]>
  (<["signal_calculations" := true]>
  (<["binance_timeouts" := true]>
  (<["asyncio_warnings" := true]>
  (<["pandas_warnings" := true]> initial_fixes)))).

(** ** The configuration surfaces, and the routines as functions on them *)

(** The configuration the module exists to set: everything in the process
    state but the records of what happened (log, call trace, number of
    collections). *)
Record Config : Type := {
  c_environ : gmap string string;
  c_filters : list warning_filter;
  c_policy : loop_policy;
  c_errstate : np_errstate;
  c_threshold : Z * Z * Z
}.

Definition config (p : Proc) : Config :=
  {| c_environ := environ p; c_filters := warning_filters p;
     c_policy := event_loop_policy p; c_errstate := numpy_errstate p;
     c_threshold := gc_threshold p |}.

(** The three filters of [fix_pandas_warnings], in the order it adds them. *)
Definition future_filter : warning_filter :=
  {| wf_action := "ignore"; wf_message := None;
     wf_category := "FutureWarning"; wf_module := Some "pandas" |}.
Definition dataframe_filter : warning_filter :=
  {| wf_action := "ignore"; wf_message := Some ".*DataFrame.fillna.*";
     wf_category := "Warning"; wf_module := None |}.
Definition series_filter : warning_filter :=
  {| wf_action := "ignore"; wf_message := Some ".*Series.fillna.*";
     wf_category := "Warning"; wf_module := None |}.

Definition add_filter (f : warning_filter) (fs : list warning_filter) : list warning_filter :=
  f :: filter (λ g, g ≠ f) fs.

(** What each routine does to its own surface, as a function of the host. *)
Definition pandas_filters (h : Host) (fs : list warning_filter) : list warning_filter :=
  match pandas h, faults h warnings_filterwarnings with
  | Installed, None =>
      add_filter series_filter (add_filter dataframe_filter (add_filter future_filter fs))
  | _, _ => fs
  end.

Definition asyncio_policy (h : Host) (pol : loop_policy) : loop_policy :=
  match faults h platform_system with
  | Some _ => pol
  | None =>
      if decide (system_name h = "Windows")
      then if has_WindowsProactorEventLoopPolicy h
           then match faults h asyncio_set_event_loop_policy with
                | None => WindowsProactorEventLoopPolicy
                | Some _ => pol
                end
           else pol
      else pol
  end.

Definition ignore_divide_invalid (s : np_errstate) : np_errstate :=
  {| err_divide := err_ignore; err_over := err_over s;
     err_under := err_under s; err_invalid := err_ignore |}.

Definition signal_errstate (h : Host) (s : np_errstate) : np_errstate :=
  match numpy h, faults h np_seterr with
  | Installed, None => ignore_divide_invalid s
  | _, _ => s
  end.

Definition memory_threshold (h : Host) (t : Z * Z * Z) : Z * Z * Z :=
  match faults h gc_collect, faults h gc_set_threshold with
  | None, None => (700, 10, 10)%Z
  | _, _ => t
  end.

(** One routine as a function on the configuration: it rewrites its own
    surface and copies the other four. *)
Definition adjust (h : Host) (r : routine) (c : Config) : Config :=
  match r with
  | r_fix_pandas_warnings =>
      {| c_environ := c_environ c; c_filters := pandas_filters h (c_filters c);
         c_policy := c_policy c; c_errstate := c_errstate c;
         c_threshold := c_threshold c |}
  | r_fix_asyncio_warnings =>
      {| c_environ := c_environ c; c_filters := c_filters c;
         c_policy := asyncio_policy h (c_policy c); c_errstate := c_errstate c;
         c_threshold := c_threshold c |}
  | r_fix_binance_client_timeouts =>
      {| c_environ := binance_defaults (c_environ c); c_filters := c_filters c;
         c_policy := c_policy c; c_errstate := c_errstate c;
         c_threshold := c_threshold c |}
  | r_fix_signal_calculations =>
      {| c_environ := c_environ c; c_filters := c_filters c;
         c_policy := c_policy c; c_errstate := signal_errstate h (c_errstate c);
         c_threshold := c_threshold c |}
  | r_optimize_memory_usage =>
      {| c_environ := c_environ c; c_filters := c_filters c;
         c_policy := c_policy c; c_errstate := c_errstate c;
         c_threshold := memory_threshold h (c_threshold c) |}
  end.

(** The routines of a list, one after the other, as a function on the
    configuration. *)
Definition adjust_all (h : Host) (rs : list routine) (c : Config) : Config :=
  foldl (λ c r, adjust h r c) c rs.

(** The code behind a routine name, and the routines run in a given order. *)
Definition routine_code (r : routine) : M unit :=
  match r with
  | r_fix_pandas_warnings => fix_pandas_warnings
  | r_fix_asyncio_warnings => fix_asyncio_warnings
  | r_fix_binance_client_timeouts => fix_binance_client_timeouts
  | r_fix_signal_calculations => fix_signal_calculations
  | r_optimize_memory_usage => optimize_memory_usage
  end.

Fixpoint run_routines (rs : list routine) : M unit :=
  match rs with
  | [] => mret ()
  | r :: rs' => routine_code r;; run_routines rs'
  end.

Definition is_debug (r : level * string) : Prop := r.1 = DEBUG.

(** ** The module run as a script *)






(** ** Running statements *)

(** A statement that returns on every host and from every state. *)
Definition never_raises {A : Type} (m : M A) : Prop :=
  ∀ h p, ∃ a p', m h p = (Returns a, p').

(** A statement that leaves one observation of the state as it was,
    whether it returns or raises. *)
Definition preserves {A B : Type} (obs : Proc → B) (m : M A) : Prop :=
  ∀ h p, obs (m h p).2 = obs p.

(** A statement that adds to the log only records at [DEBUG], whether it
    returns or raises. *)
Definition logs_debug {A : Type} (m : M A) : Prop :=
  ∀ h p, ∃ l, log (m h p).2 = (log p ++ l)%list ∧ Forall is_debug l.

Section Run.
Context {A : Type}.

Lemma run_bind {B : Type} (m : M B) (k : B → M A) h p :
  (m ≫= k) h p =
  match m h p with
  | (Returns b, p') => k b h p'
  | (Raises e, p') => (Raises e, p')
  end.
Proof. reflexivity. Qed.

Lemma run_bind_returns {B : Type} (m : M B) (k : B → M A) h p b p' :
  m h p = (Returns b, p') → (m ≫= k) h p = k b h p'.
Proof. intros Hm. rewrite run_bind, Hm. reflexivity. Qed.

Lemma run_try_returns (body : M A) handler h p a p' :
  body h p = (Returns a, p') → try_except body handler h p = (Returns a, p').
Proof. intros Hb. unfold try_except. rewrite Hb. reflexivity. Qed.

Lemma never_raises_bind {B : Type} (m : M B) (k : B → M A) :
  never_raises m →
  (∀ b, never_raises (k b)) →
  never_raises (m ≫= k).
Proof.
  intros Hm Hk h p. destruct (Hm h p) as (b & p' & Hrun).
  rewrite (run_bind_returns _ _ _ _ _ _ Hrun). apply Hk.
Qed.

(** A [try] whose handlers take every exception and do not raise
    themselves returns, whatever its body does. *)
Lemma never_raises_try_except (body : M A) handler :
  (∀ e, never_raises (handler e)) → never_raises (try_except body handler).
Proof.
  intros Hh h p. unfold try_except.
  destruct (body h p) as [[a|e] p']; [by exists a, p' | apply Hh].
Qed.

Lemma preserves_mret {B : Type} (obs : Proc → B) (a : A) : preserves obs (mret a).
Proof. by intros h p. Qed.

Lemma preserves_raise {B : Type} (obs : Proc → B) e : preserves obs (@raise A e).
Proof. by intros h p. Qed.

Lemma preserves_ask {B : Type} (obs : Proc → B) (f : Host → A) : preserves obs (ask f).
Proof. by intros h p. Qed.

Lemma preserves_get {B : Type} (obs : Proc → B) (f : Proc → A) : preserves obs (get f).
Proof. by intros h p. Qed.

Lemma preserves_bind {B C : Type} (obs : Proc → B) (m : M C) (k : C → M A) :
  preserves obs m → (∀ c, preserves obs (k c)) → preserves obs (m ≫= k).
Proof.
  intros Hm Hk h p. rewrite run_bind. specialize (Hm h p).
  destruct (m h p) as [[c|e] p']; simpl in *; [| done].
  rewrite Hk. done.
Qed.

Lemma preserves_try_except {B : Type} (obs : Proc → B) (body : M A) handler :
  preserves obs body → (∀ e, preserves obs (handler e)) →
  preserves obs (try_except body handler).
Proof.
  intros Hb Hh h p. unfold try_except. specialize (Hb h p).
  destruct (body h p) as [[a|e] p']; simpl in *; [done |].
  rewrite Hh. done.
Qed.

Lemma preserves_lib {B : Type} (obs : Proc → B) c (effect : M A) :
  preserves obs effect → preserves obs (lib c effect).
Proof. intros He h p. unfold lib. destruct (faults h c); [done | apply He]. Qed.

End Run.

Lemma preserves_import {B : Type} (obs : Proc → B) name pkg :
  preserves obs (import_optional name pkg).
Proof.
  intros h p. unfold import_optional. rewrite run_bind. simpl.
  by destruct (pkg h).
Qed.

Lemma never_raises_modify f : never_raises (modify f).
Proof. intros h p. by exists (), (f p). Qed.

Lemma preserves_modify {B : Type} (obs : Proc → B) f :
  (∀ p, obs (f p) = obs p) → preserves obs (modify f).
Proof. intros Hf h p. apply Hf. Qed.

Lemma never_raises_unit (m : M unit) :
  never_raises m → ∀ h p, ∃ p', m h p = (Returns (), p').
Proof. intros Hm h p. destruct (Hm h p) as ([] & p' & Hrun). by exists p'. Qed.

(** The handlers of the module only log. *)
Lemma never_raises_logger_debug msg : never_raises (logger_debug msg).
Proof. apply never_raises_modify. Qed.

Lemma never_raises_import_handler (absent failed : string) e :
  never_raises (if is_ImportError e then logger_debug absent else logger_debug failed).
Proof. destruct (is_ImportError e); apply never_raises_logger_debug. Qed.

(** Discharges [preserves obs m] for a statement built from the operations
    above, when every state update in it leaves [obs] alone. *)
Ltac frame :=
  repeat first
    [ progress intros
    | apply preserves_bind | apply preserves_try_except | apply preserves_lib
    | apply preserves_import | apply preserves_mret | apply preserves_ask
    | apply preserves_get | apply preserves_raise
    | apply preserves_modify; reflexivity
    | match goal with |- preserves _ (if ?b then _ else _) => destruct b end ].

(** A routine is [enter r;; try: ... except ...]: it returns and adds exactly
    its own name to the call trace, provided its handlers do not raise and
    nothing inside it calls another routine. *)
Lemma routine_returns r (body : M unit) handler :
  (∀ e, never_raises (handler e)) →
  never_raises (enter r;; try_except body handler).
Proof.
  intros Hh. apply never_raises_bind.
  - intros h p. by exists (), (add_call r p).
  - intros _. by apply never_raises_try_except.
Qed.

Lemma routine_call_trace r (body : M unit) handler h p :
  preserves calls body → (∀ e, preserves calls (handler e)) →
  calls ((enter r;; try_except body handler) h p).2 = (calls p ++ [r])%list.
Proof.
  intros Hb Hh. rewrite run_bind. simpl.
  rewrite (preserves_try_except calls body handler Hb Hh). reflexivity.
Qed.

(** ** The routines never raise *)

Lemma fix_pandas_warnings_returns : never_raises fix_pandas_warnings.
Proof. apply routine_returns. intros e. apply never_raises_import_handler. Qed.

Lemma fix_asyncio_warnings_returns : never_raises fix_asyncio_warnings.
Proof. apply routine_returns. intros e. apply never_raises_logger_debug. Qed.

Lemma fix_binance_client_timeouts_returns : never_raises fix_binance_client_timeouts.
Proof. apply routine_returns. intros e. apply never_raises_logger_debug. Qed.

Lemma fix_signal_calculations_returns : never_raises fix_signal_calculations.
Proof. apply routine_returns. intros e. apply never_raises_import_handler. Qed.

Lemma optimize_memory_usage_returns : never_raises optimize_memory_usage.
Proof. apply routine_returns. intros e. apply never_raises_logger_debug. Qed.

(** ** The call trace of each routine *)

Lemma fix_pandas_warnings_calls h p :
  calls (fix_pandas_warnings h p).2 = (calls p ++ [r_fix_pandas_warnings])%list.
Proof. apply routine_call_trace; unfold filterwarnings, logger_debug; frame. Qed.

Lemma fix_asyncio_warnings_calls h p :
  calls (fix_asyncio_warnings h p).2 = (calls p ++ [r_fix_asyncio_warnings])%list.
Proof.
  apply routine_call_trace;
    unfold platform_system_, asyncio_set_event_loop_policy_, logger_debug; frame.
Qed.

Lemma fix_binance_client_timeouts_calls h p :
  calls (fix_binance_client_timeouts h p).2
  = (calls p ++ [r_fix_binance_client_timeouts])%list.
Proof.
  apply routine_call_trace; unfold os_getenv, os_environ_set, logger_debug; frame.
Qed.

Lemma fix_signal_calculations_calls h p :
  calls (fix_signal_calculations h p).2 = (calls p ++ [r_fix_signal_calculations])%list.
Proof. apply routine_call_trace; unfold np_seterr_ignore, logger_debug; frame. Qed.

Lemma optimize_memory_usage_calls h p :
  calls (optimize_memory_usage h p).2 = (calls p ++ [r_optimize_memory_usage])%list.
Proof.
  apply routine_call_trace; unfold gc_collect_, gc_set_threshold_, logger_debug; frame.
Qed.

(** ** What the routines leave alone *)

Lemma fix_pandas_warnings_environ : preserves environ fix_pandas_warnings.
Proof. unfold fix_pandas_warnings, enter, filterwarnings, logger_debug. frame. Qed.

Lemma fix_asyncio_warnings_environ : preserves environ fix_asyncio_warnings.
Proof.
  unfold fix_asyncio_warnings, enter, platform_system_,
    asyncio_set_event_loop_policy_, logger_debug. frame.
Qed.

Lemma fix_signal_calculations_environ : preserves environ fix_signal_calculations.
Proof. unfold fix_signal_calculations, enter, np_seterr_ignore, logger_debug. frame. Qed.

Lemma optimize_memory_usage_environ : preserves environ optimize_memory_usage.
Proof.
  unfold optimize_memory_usage, enter, gc_collect_, gc_set_threshold_, logger_debug. frame.
Qed.

(** ** The environment after the timeout defaults *)

Lemma fix_binance_client_timeouts_environ h p :
  environ (fix_binance_client_timeouts h p).2 = binance_defaults (environ p).
Proof.
  unfold binance_defaults, setdefault_env.
  unfold fix_binance_client_timeouts, try_except, enter, os_getenv, os_environ_set,
    logger_debug, modify, get, mbind, M_bind, mret, M_ret.
  simpl. destruct (py_not (environ p !! "BINANCE_API_TIMEOUT")); simpl;
    match goal with |- context [py_not ?x] => destruct (py_not x) end; reflexivity.
Qed.

Lemma py_not_defaulted (before : option string) dflt :
  (if py_not before then Some dflt else before) = defaulted before dflt.
Proof. by destruct before as [[|c s]|]. Qed.

Lemma setdefault_env_lookup k v env :
  setdefault_env k v env !! k = defaulted (env !! k) v.
Proof.
  unfold setdefault_env. rewrite <- py_not_defaulted.
  destruct (py_not (env !! k)); [apply lookup_insert_eq | reflexivity].
Qed.

Lemma setdefault_env_lookup_ne k v env k' :
  k ≠ k' → setdefault_env k v env !! k' = env !! k'.
Proof.
  intros Hne. unfold setdefault_env.
  destruct (py_not (env !! k)); [by apply lookup_insert_ne | reflexivity].
Qed.

Lemma py_not_defaulted_false (before : option string) v :
  v ≠ "" → py_not (defaulted before v) = false.
Proof. intros Hv. destruct before as [[|c s]|]; simpl; by destruct v. Qed.

Lemma setdefault_env_idemp k v env :
  v ≠ "" → setdefault_env k v (setdefault_env k v env) = setdefault_env k v env.
Proof.
  intros Hv. unfold setdefault_env at 1.
  rewrite setdefault_env_lookup, py_not_defaulted_false by done. reflexivity.
Qed.

Lemma setdefault_env_comm k1 v1 k2 v2 env :
  k1 ≠ k2 →
  setdefault_env k1 v1 (setdefault_env k2 v2 env)
  = setdefault_env k2 v2 (setdefault_env k1 v1 env).
Proof.
  intros Hne. unfold setdefault_env at 1 3.
  rewrite !setdefault_env_lookup_ne by done.
  unfold setdefault_env.
  destruct (py_not (env !! k1)), (py_not (env !! k2)); try reflexivity.
  by apply insert_insert_ne.
Qed.

Lemma binance_defaults_idemp env :
  binance_defaults (binance_defaults env) = binance_defaults env.
Proof.
  unfold binance_defaults.
  rewrite (setdefault_env_comm "BINANCE_API_TIMEOUT" "30" "BINANCE_MAX_RETRIES" "3") by done.
  rewrite !setdefault_env_idemp by done.
  reflexivity.
Qed.

(** ** Running the two entry points *)

(** One block of [get_fix_status] around a routine that never raises sets the
    routine's flag. *)
Lemma record_fix_returns (r : M unit) key fixes h p :
  never_raises r →
  record_fix r key fixes h p = (Returns (<[key := true]> fixes), (r h p).2).
Proof.
  intros Hr. destruct (never_raises_unit r Hr h p) as [p' Hrun].
  unfold record_fix. rewrite Hrun. simpl.
  apply run_try_returns. by rewrite (run_bind_returns _ _ _ _ _ _ Hrun).
Qed.

Lemma get_fix_status_run h p :
  get_fix_status h p =
  (Returns all_fixed,
   (optimize_memory_usage h
     (fix_signal_calculations h
       (fix_binance_client_timeouts h
         (fix_asyncio_warnings h
           (fix_pandas_warnings h p).2).2).2).2).2).
Proof.
  unfold get_fix_status.
  erewrite run_bind_returns by (apply record_fix_returns, fix_pandas_warnings_returns).
  erewrite run_bind_returns by (apply record_fix_returns, fix_asyncio_warnings_returns).
  erewrite run_bind_returns
    by (apply record_fix_returns, fix_binance_client_timeouts_returns).
  erewrite run_bind_returns by (apply record_fix_returns, fix_signal_calculations_returns).
  erewrite run_bind_returns by (apply record_fix_returns, optimize_memory_usage_returns).
  reflexivity.
Qed.

Lemma apply_fixes_run h p :
  apply_fixes h p =
  (Returns (),
   add_log (INFO, "✅ All simple live fixes applied successfully")
   (optimize_memory_usage h
     (fix_signal_calculations h
       (fix_binance_client_timeouts h
         (fix_asyncio_warnings h
           (fix_pandas_warnings h p).2).2).2).2).2).
Proof.
  unfold apply_fixes. apply run_try_returns.
  destruct (never_raises_unit _ fix_pandas_warnings_returns h p) as [p1 H1].
  rewrite (run_bind_returns _ _ _ _ _ _ H1), H1. simpl.
  destruct (never_raises_unit _ fix_asyncio_warnings_returns h p1) as [p2 H2].
  rewrite (run_bind_returns _ _ _ _ _ _ H2), H2. simpl.
  destruct (never_raises_unit _ fix_binance_client_timeouts_returns h p2) as [p3 H3].
  rewrite (run_bind_returns _ _ _ _ _ _ H3), H3. simpl.
  destruct (never_raises_unit _ fix_signal_calculations_returns h p3) as [p4 H4].
  rewrite (run_bind_returns _ _ _ _ _ _ H4), H4. simpl.
  destruct (never_raises_unit _ optimize_memory_usage_returns h p4) as [p5 H5].
  rewrite (run_bind_returns _ _ _ _ _ _ H5), H5. simpl.
  reflexivity.
Qed.

Lemma all_fixed_lookup k : k ∈ fix_names → all_fixed !! k = Some true.
Proof.
  unfold fix_names. rewrite !elem_of_union, !elem_of_singleton.
  intros [[[[->| ->]| ->]| ->]| ->]; reflexivity.
Qed.

Lemma all_fixed_dom : dom all_fixed = fix_names.
Proof.
  unfold all_fixed, initial_fixes, fix_names.
  rewrite !dom_insert_L, dom_empty_L. set_solver.
Qed.

(** ** The no-op paths *)

Lemma fix_pandas_warnings_run_absent h p :
  pandas h = NotInstalled →
  fix_pandas_warnings h p
  = (Returns (),
     add_log (DEBUG, "⚠️ Pandas not available for warning fixes")
       (add_call r_fix_pandas_warnings p)).
Proof.
  intros Hpd. unfold fix_pandas_warnings, try_except, enter, import_optional, ask, modify.
  rewrite !run_bind. simpl. rewrite Hpd. reflexivity.
Qed.

Lemma fix_signal_calculations_run_absent h p :
  numpy h = NotInstalled →
  fix_signal_calculations h p
  = (Returns (),
     add_log (DEBUG, "⚠️ NumPy not available for signal fixes")
       (add_call r_fix_signal_calculations p)).
Proof.
  intros Hnp. unfold fix_signal_calculations, try_except, enter, import_optional, ask, modify.
  rewrite !run_bind. simpl. rewrite Hnp. reflexivity.
Qed.

Lemma fix_asyncio_warnings_policy_non_windows h p :
  system_name h ≠ "Windows" →
  event_loop_policy (fix_asyncio_warnings h p).2 = event_loop_policy p.
Proof.
  intros Hsys.
  unfold fix_asyncio_warnings, try_except, enter, platform_system_, lib, ask,
    logger_debug, modify.
  rewrite !run_bind. simpl.
  destruct (faults h platform_system) as [e|]; simpl; [reflexivity |].
  destruct (decide (system_name h = "Windows")); [done | reflexivity].
Qed.

(** Each routine leaves alone the configuration that belongs to the others. *)
Lemma fix_asyncio_warnings_filters : preserves warning_filters fix_asyncio_warnings.
Proof.
  unfold fix_asyncio_warnings, enter, platform_system_,
    asyncio_set_event_loop_policy_, logger_debug. frame.
Qed.

Lemma fix_binance_client_timeouts_filters :
  preserves warning_filters fix_binance_client_timeouts.
Proof.
  unfold fix_binance_client_timeouts, enter, os_getenv, os_environ_set, logger_debug.
  frame.
Qed.

Lemma fix_signal_calculations_filters : preserves warning_filters fix_signal_calculations.
Proof. unfold fix_signal_calculations, enter, np_seterr_ignore, logger_debug. frame. Qed.

Lemma optimize_memory_usage_filters : preserves warning_filters optimize_memory_usage.
Proof.
  unfold optimize_memory_usage, enter, gc_collect_, gc_set_threshold_, logger_debug. frame.
Qed.

Lemma fix_pandas_warnings_policy : preserves event_loop_policy fix_pandas_warnings.
Proof. unfold fix_pandas_warnings, enter, filterwarnings, logger_debug. frame. Qed.

Lemma fix_binance_client_timeouts_policy :
  preserves event_loop_policy fix_binance_client_timeouts.
Proof.
  unfold fix_binance_client_timeouts, enter, os_getenv, os_environ_set, logger_debug.
  frame.
Qed.

Lemma fix_signal_calculations_policy : preserves event_loop_policy fix_signal_calculations.
Proof. unfold fix_signal_calculations, enter, np_seterr_ignore, logger_debug. frame. Qed.

Lemma optimize_memory_usage_policy : preserves event_loop_policy optimize_memory_usage.
Proof.
  unfold optimize_memory_usage, enter, gc_collect_, gc_set_threshold_, logger_debug. frame.
Qed.

Lemma fix_pandas_warnings_errstate : preserves numpy_errstate fix_pandas_warnings.
Proof. unfold fix_pandas_warnings, enter, filterwarnings, logger_debug. frame. Qed.

Lemma fix_asyncio_warnings_errstate : preserves numpy_errstate fix_asyncio_warnings.
Proof.
  unfold fix_asyncio_warnings, enter, platform_system_,
    asyncio_set_event_loop_policy_, logger_debug. frame.
Qed.

Lemma fix_binance_client_timeouts_errstate :
  preserves numpy_errstate fix_binance_client_timeouts.
Proof.
  unfold fix_binance_client_timeouts, enter, os_getenv, os_environ_set, logger_debug.
  frame.
Qed.

Lemma optimize_memory_usage_errstate : preserves numpy_errstate optimize_memory_usage.
Proof.
  unfold optimize_memory_usage, enter, gc_collect_, gc_set_threshold_, logger_debug. frame.
Qed.

(** On a host without the optional packages and not on Windows, the five
    routines in sequence leave filters, policy and error state untouched. *)
Lemma routines_noop h p :
  pandas h = NotInstalled → numpy h = NotInstalled → system_name h ≠ "Windows" →
  let p' := (optimize_memory_usage h
              (fix_signal_calculations h
                (fix_binance_client_timeouts h
                  (fix_asyncio_warnings h
                    (fix_pandas_warnings h p).2).2).2).2).2 in
  warning_filters p' = warning_filters p ∧
  event_loop_policy p' = event_loop_policy p ∧
  numpy_errstate p' = numpy_errstate p.
Proof.
  intros Hpd Hnp Hsys p'. subst p'. repeat split.
  - rewrite optimize_memory_usage_filters, fix_signal_calculations_filters,
      fix_binance_client_timeouts_filters, fix_asyncio_warnings_filters.
    by rewrite fix_pandas_warnings_run_absent.
  - rewrite optimize_memory_usage_policy, fix_signal_calculations_policy,
      fix_binance_client_timeouts_policy.
    rewrite fix_asyncio_warnings_policy_non_windows by done.
    apply fix_pandas_warnings_policy.
  - rewrite optimize_memory_usage_errstate.
    rewrite fix_signal_calculations_run_absent by done. simpl.
    rewrite fix_binance_client_timeouts_errstate, fix_asyncio_warnings_errstate.
    apply fix_pandas_warnings_errstate.
Qed.

(** What the five routines, run in the order of both entry points, do to the
    environment. *)
Lemma routines_environ h p :
  environ (optimize_memory_usage h
            (fix_signal_calculations h
              (fix_binance_client_timeouts h
                (fix_asyncio_warnings h
                  (fix_pandas_warnings h p).2).2).2).2).2
  = binance_defaults (environ p).
Proof.
  rewrite optimize_memory_usage_environ, fix_signal_calculations_environ,
    fix_binance_client_timeouts_environ, fix_asyncio_warnings_environ,
    fix_pandas_warnings_environ.
  reflexivity.
Qed.

(** ** The model on concrete hosts *)

Example user_timeout_kept :
  environ (fix_binance_client_timeouts bare_linux (fresh_proc user_env)).2
    !! "BINANCE_API_TIMEOUT" = Some "99".
Proof. reflexivity. Qed.

Example missing_retries_set :
  environ (fix_binance_client_timeouts bare_linux (fresh_proc user_env)).2
    !! "BINANCE_MAX_RETRIES" = Some "3".
Proof. reflexivity. Qed.

Example empty_timeout_overwritten :
  environ (fix_binance_client_timeouts bare_linux
             (fresh_proc (<["BINANCE_API_TIMEOUT" := ""]> ∅))).2
    !! "BINANCE_API_TIMEOUT" = Some "30".
Proof. reflexivity. Qed.

Example windows_policy_selected :
  event_loop_policy (apply_fixes windows_partial (fresh_proc ∅)).2
  = WindowsProactorEventLoopPolicy.
Proof. reflexivity. Qed.

Example windows_partial_log :
  log (fix_signal_calculations windows_partial (fresh_proc ∅)).2
  = [(DEBUG, "⚠️ Failed to fix signal calculations: module 'numpy' has no attribute 'seterr'")].
Proof. reflexivity. Qed.

Example windows_partial_filters :
  length (warning_filters
            (get_fix_status windows_partial
               (apply_fixes windows_partial (fresh_proc ∅)).2).2) = 3.
Proof. reflexivity. Qed.

Example bare_linux_status :
  (get_fix_status bare_linux (fresh_proc ∅)).1 = Returns all_fixed.
Proof. reflexivity. Qed.

(** ** The claims *)

(** C1. On every host and from every process state, [apply_fixes] returns
    normally with [None]: a failure anywhere in the sequence of five routines
    does not reach the caller.  The returned state also shows that the call
    ended by logging, either the success line at [INFO] or, had the sequence
    raised, the error line at [WARNING]. *)
Theorem apply_fixes_never_raises (h : Host) (p : Proc) :
  (apply_fixes h p).1 = Returns () ∧
  ∃ lvl msg, last (log (apply_fixes h p).2) = Some (lvl, msg) ∧
             (lvl = INFO ∨ lvl = WARNING).
Proof.
  split.
  - assert (Hret : never_raises apply_fixes).
    { apply never_raises_try_except. intros e. apply never_raises_modify. }
    destruct (never_raises_unit _ Hret h p) as [p' Hrun]. by rewrite Hrun.
  - unfold apply_fixes, try_except.
    repeat (rewrite run_bind;
            match goal with
            | |- context [match ?m h ?q with _ => _ end] =>
                destruct (m h q) as [[[]|e] ?]
            end);
      simpl; rewrite last_snoc; eauto.
Qed.

(** C2. On every host and from every process state, [get_fix_status]
    returns a dictionary whose keys are exactly the five fix names, each
    bound to a boolean. *)
Theorem get_fix_status_keys (h : Host) (p : Proc) :
  ∃ d : gmap string bool,
    (get_fix_status h p).1 = Returns d ∧
    dom d = fix_names ∧
    ∀ k, k ∈ fix_names ↔ ∃ b : bool, d !! k = Some b.
Proof.
  exists all_fixed. rewrite get_fix_status_run. split; [reflexivity |].
  split; [apply all_fixed_dom |].
  intros k. rewrite <- all_fixed_dom, elem_of_dom. reflexivity.
Qed.

(** C3. After [fix_binance_client_timeouts], [BINANCE_API_TIMEOUT] is "30"
    if it was unset or empty before and keeps its old value otherwise;
    likewise [BINANCE_MAX_RETRIES] with "3". *)
Theorem fix_binance_client_timeouts_defaults (h : Host) (p : Proc) :
  environ (fix_binance_client_timeouts h p).2 !! "BINANCE_API_TIMEOUT"
  = defaulted (environ p !! "BINANCE_API_TIMEOUT") "30" ∧
  environ (fix_binance_client_timeouts h p).2 !! "BINANCE_MAX_RETRIES"
  = defaulted (environ p !! "BINANCE_MAX_RETRIES") "3".
Proof.
  rewrite fix_binance_client_timeouts_environ. unfold binance_defaults. split.
  - rewrite setdefault_env_lookup_ne by done. apply setdefault_env_lookup.
  - rewrite setdefault_env_lookup. by rewrite setdefault_env_lookup_ne.
Qed.

(** C6. Calling [fix_binance_client_timeouts] a second time leaves the
    environment, and so both timeout variables, as the first call left it. *)
Theorem fix_binance_client_timeouts_idempotent (h : Host) (p : Proc) :
  environ (fix_binance_client_timeouts h (fix_binance_client_timeouts h p).2).2
  = environ (fix_binance_client_timeouts h p).2.
Proof.
  rewrite !fix_binance_client_timeouts_environ. apply binance_defaults_idemp.
Qed.

(** C7. On a host whose platform is not Windows, [fix_asyncio_warnings]
    returns normally and the event-loop policy is the one it was. *)
Theorem fix_asyncio_warnings_non_windows (h : Host) (p : Proc) :
  system_name h ≠ "Windows" →
  (fix_asyncio_warnings h p).1 = Returns () ∧
  event_loop_policy (fix_asyncio_warnings h p).2 = event_loop_policy p.
Proof.
  intros Hsys. split.
  - destruct (never_raises_unit _ fix_asyncio_warnings_returns h p) as [p' Hrun].
    by rewrite Hrun.
  - by apply fix_asyncio_warnings_policy_non_windows.
Qed.

Lemma fix_asyncio_warnings_non_windows_witness :
  system_name bare_linux ≠ "Windows" ∧
  (fix_asyncio_warnings bare_linux (fresh_proc user_env)).1 = Returns () ∧
  event_loop_policy (fix_asyncio_warnings bare_linux (fresh_proc user_env)).2
  = event_loop_policy (fresh_proc user_env).
Proof.
  split; [discriminate |].
  apply (fix_asyncio_warnings_non_windows bare_linux (fresh_proc user_env)).
  discriminate.
Defined.

(** C8. One call of [apply_fixes] enters the five routines in the order
    pandas warnings, asyncio policy, Binance timeouts, signal calculations,
    memory usage, each once: that list is what the call adds to the trace. *)
Theorem apply_fixes_call_order (h : Host) (p : Proc) :
  calls (apply_fixes h p).2 = (calls p ++ apply_order)%list.
Proof.
  rewrite apply_fixes_run. simpl.
  rewrite optimize_memory_usage_calls, fix_signal_calculations_calls,
    fix_binance_client_timeouts_calls, fix_asyncio_warnings_calls,
    fix_pandas_warnings_calls.
  unfold apply_order. by rewrite <- !app_assoc.
Qed.

(** C9. Each of the five routines returns on every host and from every
    state, so no [except] branch of [get_fix_status] is taken and every
    flag of the dictionary it returns is true. *)
Theorem get_fix_status_all_true (h : Host) (p : Proc) :
  (never_raises fix_pandas_warnings ∧ never_raises fix_asyncio_warnings ∧
   never_raises fix_binance_client_timeouts ∧ never_raises fix_signal_calculations ∧
   never_raises optimize_memory_usage) ∧
  ∃ d : gmap string bool,
    (get_fix_status h p).1 = Returns d ∧
    dom d = fix_names ∧
    ∀ k, k ∈ fix_names → d !! k = Some true.
Proof.
  split.
  - auto using fix_pandas_warnings_returns, fix_asyncio_warnings_returns,
      fix_binance_client_timeouts_returns, fix_signal_calculations_returns,
      optimize_memory_usage_returns.
  - exists all_fixed. rewrite get_fix_status_run.
    auto using all_fixed_dom, all_fixed_lookup.
Qed.

(** C10. [fix_binance_client_timeouts] writes no environment variable other
    than [BINANCE_API_TIMEOUT] and [BINANCE_MAX_RETRIES]: any other name has
    after the call the value, or the absence, it had before. *)
Theorem fix_binance_client_timeouts_frame (h : Host) (p : Proc) (k : string) :
  k ≠ "BINANCE_API_TIMEOUT" → k ≠ "BINANCE_MAX_RETRIES" →
  environ (fix_binance_client_timeouts h p).2 !! k = environ p !! k.
Proof.
  intros Ht Hr. rewrite fix_binance_client_timeouts_environ. unfold binance_defaults.
  by rewrite !setdefault_env_lookup_ne.
Qed.

Lemma fix_binance_client_timeouts_frame_witness :
  "PATH" ≠ "BINANCE_API_TIMEOUT" ∧ "PATH" ≠ "BINANCE_MAX_RETRIES" ∧
  environ (fix_binance_client_timeouts bare_linux (fresh_proc user_env)).2 !! "PATH"
  = environ (fresh_proc user_env) !! "PATH".
Proof.
  split; [discriminate |]. split; [discriminate |].
  apply (fix_binance_client_timeouts_frame bare_linux (fresh_proc user_env) "PATH");
    discriminate.
Defined.

(** C4. On a host that is not Windows and has neither pandas nor numpy, from
    a state where neither timeout variable is set: [apply_fixes] returns and
    logs its success line, having gone through the no-op paths (warning
    filters, event-loop policy and numpy error state are as before); the
    [get_fix_status] that follows returns a dictionary with all five flags
    true; and [BINANCE_API_TIMEOUT] is "30" and [BINANCE_MAX_RETRIES] is "3"
    after either call. *)
Theorem bare_host_scenario (h : Host) (p : Proc) :
  pandas h = NotInstalled → numpy h = NotInstalled →
  system_name h ≠ "Windows" →
  environ p !! "BINANCE_API_TIMEOUT" = None →
  environ p !! "BINANCE_MAX_RETRIES" = None →
  let p1 := (apply_fixes h p).2 in
  let p2 := (get_fix_status h p1).2 in
  (apply_fixes h p).1 = Returns () ∧
  last (log p1) = Some (INFO, "✅ All simple live fixes applied successfully") ∧
  (warning_filters p1 = warning_filters p ∧
   event_loop_policy p1 = event_loop_policy p ∧
   numpy_errstate p1 = numpy_errstate p) ∧
  (∃ d : gmap string bool,
     (get_fix_status h p1).1 = Returns d ∧
     dom d = fix_names ∧
     ∀ k, k ∈ fix_names → d !! k = Some true) ∧
  environ p1 !! "BINANCE_API_TIMEOUT" = Some "30" ∧
  environ p1 !! "BINANCE_MAX_RETRIES" = Some "3" ∧
  environ p2 !! "BINANCE_API_TIMEOUT" = Some "30" ∧
  environ p2 !! "BINANCE_MAX_RETRIES" = Some "3".
Proof.
  intros Hpd Hnp Hsys Ht Hr p1 p2.
  assert (Henv1 : environ p1 = binance_defaults (environ p)).
  { subst p1. rewrite apply_fixes_run. simpl. apply routines_environ. }
  assert (Henv2 : environ p2 = binance_defaults (environ p)).
  { subst p2. rewrite get_fix_status_run. simpl.
    rewrite routines_environ, Henv1. apply binance_defaults_idemp. }
  assert (Hto : binance_defaults (environ p) !! "BINANCE_API_TIMEOUT" = Some "30").
  { unfold binance_defaults. rewrite setdefault_env_lookup_ne by done.
    by rewrite setdefault_env_lookup, Ht. }
  assert (Hre : binance_defaults (environ p) !! "BINANCE_MAX_RETRIES" = Some "3").
  { unfold binance_defaults. rewrite setdefault_env_lookup.
    by rewrite setdefault_env_lookup_ne, Hr. }
  split; [by rewrite apply_fixes_run |].
  split; [subst p1; rewrite apply_fixes_run; simpl; apply last_snoc |].
  split; [subst p1; rewrite apply_fixes_run; simpl; by apply routines_noop |].
  split.
  { exists all_fixed. rewrite get_fix_status_run.
    auto using all_fixed_dom, all_fixed_lookup. }
  rewrite Henv1, Henv2. auto.
Qed.

Lemma bare_host_scenario_witness :
  pandas bare_linux = NotInstalled ∧ numpy bare_linux = NotInstalled ∧
  system_name bare_linux ≠ "Windows" ∧
  environ (fresh_proc ∅) !! "BINANCE_API_TIMEOUT" = None ∧
  environ (fresh_proc ∅) !! "BINANCE_MAX_RETRIES" = None ∧
  let p1 := (apply_fixes bare_linux (fresh_proc ∅)).2 in
  let p2 := (get_fix_status bare_linux p1).2 in
  (apply_fixes bare_linux (fresh_proc ∅)).1 = Returns () ∧
  last (log p1) = Some (INFO, "✅ All simple live fixes applied successfully") ∧
  (warning_filters p1 = warning_filters (fresh_proc ∅) ∧
   event_loop_policy p1 = event_loop_policy (fresh_proc ∅) ∧
   numpy_errstate p1 = numpy_errstate (fresh_proc ∅)) ∧
  (∃ d : gmap string bool,
     (get_fix_status bare_linux p1).1 = Returns d ∧
     dom d = fix_names ∧
     ∀ k, k ∈ fix_names → d !! k = Some true) ∧
  environ p1 !! "BINANCE_API_TIMEOUT" = Some "30" ∧
  environ p1 !! "BINANCE_MAX_RETRIES" = Some "3" ∧
  environ p2 !! "BINANCE_API_TIMEOUT" = Some "30" ∧
  environ p2 !! "BINANCE_MAX_RETRIES" = Some "3".
Proof.
  split; [reflexivity |]. split; [reflexivity |]. split; [discriminate |].
  split; [reflexivity |]. split; [reflexivity |].
  apply (bare_host_scenario bare_linux (fresh_proc ∅));
    first [reflexivity | discriminate].
Defined.

(** C5. If pandas is not installed, [fix_pandas_warnings] returns normally,
    the list of warning filters is the one it was (the routine only logs
    that pandas is unavailable), and [get_fix_status] reports the
    'pandas_warnings' flag as true. *)
Theorem fix_pandas_warnings_absent (h : Host) (p : Proc) :
  pandas h = NotInstalled →
  (fix_pandas_warnings h p).1 = Returns () ∧
  warning_filters (fix_pandas_warnings h p).2 = warning_filters p ∧
  log (fix_pandas_warnings h p).2
  = (log p ++ [(DEBUG, "⚠️ Pandas not available for warning fixes")])%list ∧
  ∃ d : gmap string bool,
    (get_fix_status h p).1 = Returns d ∧ d !! "pandas_warnings" = Some true.
Proof.
  intros Hpd. rewrite (fix_pandas_warnings_run_absent h p Hpd). simpl.
  repeat split. exists all_fixed. by rewrite get_fix_status_run.
Qed.

Lemma fix_pandas_warnings_absent_witness :
  pandas bare_linux = NotInstalled ∧
  (fix_pandas_warnings bare_linux (fresh_proc user_env)).1 = Returns () ∧
  warning_filters (fix_pandas_warnings bare_linux (fresh_proc user_env)).2
  = warning_filters (fresh_proc user_env) ∧
  log (fix_pandas_warnings bare_linux (fresh_proc user_env)).2
  = (log (fresh_proc user_env)
     ++ [(DEBUG, "⚠️ Pandas not available for warning fixes")])%list ∧
  ∃ d : gmap string bool,
    (get_fix_status bare_linux (fresh_proc user_env)).1 = Returns d ∧
    d !! "pandas_warnings" = Some true.
Proof.
  split; [reflexivity |].
  apply (fix_pandas_warnings_absent bare_linux (fresh_proc user_env)).
  reflexivity.
Defined.

(** ** Each routine on its own surface *)

Lemma fix_pandas_warnings_filters h p :
  warning_filters (fix_pandas_warnings h p).2 = pandas_filters h (warning_filters p).
Proof.
  unfold pandas_filters, fix_pandas_warnings, try_except, enter, import_optional,
    filterwarnings, lib, logger_debug, ask, raise, modify, mbind, M_bind, mret, M_ret.
  destruct (pandas h); simpl; try (by destruct (is_ImportError _)).
  - destruct (faults h warnings_filterwarnings); simpl; [| reflexivity].
    by destruct (is_ImportError _).
  - by destruct (faults h warnings_filterwarnings).
Qed.

Lemma fix_asyncio_warnings_policy h p :
  event_loop_policy (fix_asyncio_warnings h p).2 = asyncio_policy h (event_loop_policy p).
Proof.
  unfold asyncio_policy, fix_asyncio_warnings, try_except, enter, platform_system_,
    asyncio_set_event_loop_policy_, lib, ask, logger_debug, modify.
  rewrite !run_bind. simpl.
  destruct (faults h platform_system); simpl; [reflexivity |].
  destruct (decide (system_name h = "Windows")); [| reflexivity].
  rewrite !run_bind. simpl.
  destruct (has_WindowsProactorEventLoopPolicy h); [| reflexivity].
  rewrite !run_bind.
  destruct (faults h asyncio_set_event_loop_policy); reflexivity.
Qed.

Lemma fix_signal_calculations_errstate h p :
  numpy_errstate (fix_signal_calculations h p).2 = signal_errstate h (numpy_errstate p).
Proof.
  unfold signal_errstate, fix_signal_calculations, try_except, enter, import_optional,
    np_seterr_ignore, lib, logger_debug, ask, raise, modify, mbind, M_bind, mret, M_ret.
  destruct (numpy h); simpl; try (by destruct (is_ImportError _)).
  - destruct (faults h np_seterr); simpl; [| reflexivity].
    by destruct (is_ImportError _).
  - by destruct (faults h np_seterr).
Qed.

Lemma optimize_memory_usage_threshold h p :
  gc_threshold (optimize_memory_usage h p).2 = memory_threshold h (gc_threshold p).
Proof.
  unfold memory_threshold, optimize_memory_usage, try_except, enter, gc_collect_,
    gc_set_threshold_, lib, logger_debug, modify, mbind, M_bind, mret, M_ret.
  destruct (faults h gc_collect), (faults h gc_set_threshold); reflexivity.
Qed.

Lemma fix_pandas_warnings_threshold : preserves gc_threshold fix_pandas_warnings.
Proof. unfold fix_pandas_warnings, enter, filterwarnings, logger_debug. frame. Qed.

Lemma fix_asyncio_warnings_threshold : preserves gc_threshold fix_asyncio_warnings.
Proof.
  unfold fix_asyncio_warnings, enter, platform_system_,
    asyncio_set_event_loop_policy_, logger_debug. frame.
Qed.

Lemma fix_binance_client_timeouts_threshold :
  preserves gc_threshold fix_binance_client_timeouts.
Proof.
  unfold fix_binance_client_timeouts, enter, os_getenv, os_environ_set, logger_debug.
  frame.
Qed.

Lemma fix_signal_calculations_threshold : preserves gc_threshold fix_signal_calculations.
Proof. unfold fix_signal_calculations, enter, np_seterr_ignore, logger_debug. frame. Qed.

Lemma routine_code_config h r p :
  config (routine_code r h p).2 = adjust h r (config p).
Proof.
  unfold config. destruct r; simpl.
  - by rewrite fix_pandas_warnings_environ, fix_pandas_warnings_filters,
      fix_pandas_warnings_policy, fix_pandas_warnings_errstate,
      fix_pandas_warnings_threshold.
  - by rewrite fix_asyncio_warnings_environ, fix_asyncio_warnings_filters,
      fix_asyncio_warnings_policy, fix_asyncio_warnings_errstate,
      fix_asyncio_warnings_threshold.
  - by rewrite fix_binance_client_timeouts_environ, fix_binance_client_timeouts_filters,
      fix_binance_client_timeouts_policy, fix_binance_client_timeouts_errstate,
      fix_binance_client_timeouts_threshold.
  - by rewrite fix_signal_calculations_environ, fix_signal_calculations_filters,
      fix_signal_calculations_policy, fix_signal_calculations_errstate,
      fix_signal_calculations_threshold.
  - by rewrite optimize_memory_usage_environ, optimize_memory_usage_filters,
      optimize_memory_usage_policy, optimize_memory_usage_errstate,
      optimize_memory_usage_threshold.
Qed.

Lemma routine_code_returns r : never_raises (routine_code r).
Proof.
  destruct r; simpl;
    auto using fix_pandas_warnings_returns, fix_asyncio_warnings_returns,
      fix_binance_client_timeouts_returns, fix_signal_calculations_returns,
      optimize_memory_usage_returns.
Qed.

(** ** Idempotence and independence of the surface functions *)

Lemma three_filters fs :
  add_filter series_filter (add_filter dataframe_filter (add_filter future_filter fs))
  = series_filter :: dataframe_filter :: future_filter ::
      filter (λ g, g ≠ series_filter)
        (filter (λ g, g ≠ dataframe_filter) (filter (λ g, g ≠ future_filter) fs)).
Proof.
  unfold add_filter.
  rewrite (filter_cons_True (λ g, g ≠ dataframe_filter) future_filter) by done.
  rewrite (filter_cons_True (λ g, g ≠ series_filter) dataframe_filter) by done.
  rewrite (filter_cons_True (λ g, g ≠ series_filter) future_filter) by done.
  reflexivity.
Qed.

Lemma pandas_filters_idemp h fs :
  pandas_filters h (pandas_filters h fs) = pandas_filters h fs.
Proof.
  unfold pandas_filters.
  destruct (pandas h); try reflexivity.
  destruct (faults h warnings_filterwarnings); [reflexivity |].
  rewrite !three_filters. do 3 f_equal.
  rewrite (filter_cons_True (λ g, g ≠ future_filter) series_filter) by done.
  rewrite (filter_cons_True (λ g, g ≠ future_filter) dataframe_filter) by done.
  rewrite (filter_cons_False (λ g, g ≠ future_filter) future_filter) by (intros Hne; done).
  rewrite (filter_cons_True (λ g, g ≠ dataframe_filter) series_filter) by done.
  rewrite (filter_cons_False (λ g, g ≠ dataframe_filter) dataframe_filter)
    by (intros Hne; done).
  rewrite (filter_cons_False (λ g, g ≠ series_filter) series_filter) by (intros Hne; done).
  rewrite !list_filter_filter. apply list_filter_iff. intros g. tauto.
Qed.

Lemma asyncio_policy_idemp h pol :
  asyncio_policy h (asyncio_policy h pol) = asyncio_policy h pol.
Proof.
  unfold asyncio_policy.
  destruct (faults h platform_system); [reflexivity |].
  destruct (decide (system_name h = "Windows")); [| reflexivity].
  destruct (has_WindowsProactorEventLoopPolicy h); [| reflexivity].
  destruct (faults h asyncio_set_event_loop_policy); reflexivity.
Qed.

Lemma signal_errstate_idemp h s :
  signal_errstate h (signal_errstate h s) = signal_errstate h s.
Proof.
  unfold signal_errstate. destruct (numpy h), (faults h np_seterr); reflexivity.
Qed.

Lemma memory_threshold_idemp h t :
  memory_threshold h (memory_threshold h t) = memory_threshold h t.
Proof.
  unfold memory_threshold.
  destruct (faults h gc_collect), (faults h gc_set_threshold); reflexivity.
Qed.

Lemma adjust_idemp h r c : adjust h r (adjust h r c) = adjust h r c.
Proof.
  destruct r; unfold adjust; simpl; f_equal;
    auto using pandas_filters_idemp, asyncio_policy_idemp, binance_defaults_idemp,
      signal_errstate_idemp, memory_threshold_idemp.
Qed.

(** Two routines write different surfaces, or are the same routine. *)
Lemma adjust_comm h r1 r2 c :
  adjust h r1 (adjust h r2 c) = adjust h r2 (adjust h r1 c).
Proof. destruct r1, r2; reflexivity. Qed.

Lemma adjust_all_cons h r rs c :
  adjust_all h (r :: rs) c = adjust_all h rs (adjust h r c).
Proof. reflexivity. Qed.

Lemma adjust_adjust_all h r rs c :
  adjust h r (adjust_all h rs c) = adjust_all h rs (adjust h r c).
Proof.
  revert c. induction rs as [|r' rs IH]; intros c; [reflexivity |].
  rewrite !adjust_all_cons, IH. by rewrite adjust_comm.
Qed.

Lemma adjust_all_perm h rs rs' c :
  rs ≡ₚ rs' → adjust_all h rs c = adjust_all h rs' c.
Proof.
  intros Hperm. revert c.
  induction Hperm as [|r rs rs' _ IH|r1 r2 rs|rs1 rs2 rs3 _ IH1 _ IH2]; intros c.
  - reflexivity.
  - rewrite !adjust_all_cons. apply IH.
  - rewrite !adjust_all_cons. by rewrite adjust_comm.
  - by rewrite IH1.
Qed.

Lemma adjust_all_idemp h rs c :
  adjust_all h rs (adjust_all h rs c) = adjust_all h rs c.
Proof.
  revert c. induction rs as [|r rs IH]; intros c; [reflexivity |].
  rewrite !adjust_all_cons, adjust_adjust_all, adjust_idemp. apply IH.
Qed.

(** ** The entry points on the configuration *)

Lemma run_routines_returns rs : never_raises (run_routines rs).
Proof.
  induction rs as [|r rs IH]; simpl.
  - intros h p. by exists (), p.
  - apply never_raises_bind; [apply routine_code_returns | by intros _].
Qed.

Lemma run_routines_config h rs p :
  config (run_routines rs h p).2 = adjust_all h rs (config p).
Proof.
  revert p. induction rs as [|r rs IH]; intros p; [reflexivity |].
  simpl run_routines.
  destruct (never_raises_unit _ (routine_code_returns r) h p) as [p' Hrun].
  rewrite (run_bind_returns _ _ _ _ _ _ Hrun), IH, adjust_all_cons.
  by rewrite <- routine_code_config, Hrun.
Qed.

Lemma five_routines_config h p :
  config (optimize_memory_usage h
           (fix_signal_calculations h
             (fix_binance_client_timeouts h
               (fix_asyncio_warnings h
                 (fix_pandas_warnings h p).2).2).2).2).2
  = adjust_all h apply_order (config p).
Proof.
  rewrite (routine_code_config h r_optimize_memory_usage),
    (routine_code_config h r_fix_signal_calculations),
    (routine_code_config h r_fix_binance_client_timeouts),
    (routine_code_config h r_fix_asyncio_warnings),
    (routine_code_config h r_fix_pandas_warnings).
  reflexivity.
Qed.

Lemma apply_fixes_config h p :
  config (apply_fixes h p).2 = adjust_all h apply_order (config p).
Proof. rewrite apply_fixes_run. simpl. apply five_routines_config. Qed.

Lemma get_fix_status_config h p :
  config (get_fix_status h p).2 = adjust_all h apply_order (config p).
Proof. rewrite get_fix_status_run. simpl. apply five_routines_config. Qed.

(** ** What reaches the log *)

Lemma logs_debug_quiet {A : Type} (m : M A) : preserves log m → logs_debug m.
Proof. intros Hm h p. exists []. by rewrite Hm, app_nil_r. Qed.

Lemma logs_debug_logger_debug msg : logs_debug (logger_debug msg).
Proof.
  intros h p. exists [(DEBUG, msg)]. split; [reflexivity |].
  by apply Forall_singleton.
Qed.

Lemma logs_debug_bind {A B : Type} (m : M B) (k : B → M A) :
  logs_debug m → (∀ b, logs_debug (k b)) → logs_debug (m ≫= k).
Proof.
  intros Hm Hk h p. rewrite run_bind. destruct (Hm h p) as (l1 & Hl1 & Hd1).
  destruct (m h p) as [[b|e] p']; simpl in *; [| by exists l1].
  destruct (Hk b h p') as (l2 & Hl2 & Hd2). exists (l1 ++ l2)%list.
  rewrite Hl2, Hl1, app_assoc. split; [reflexivity | by apply Forall_app].
Qed.

Lemma logs_debug_try_except {A : Type} (body : M A) handler :
  logs_debug body → (∀ e, logs_debug (handler e)) → logs_debug (try_except body handler).
Proof.
  intros Hb Hh h p. unfold try_except. destruct (Hb h p) as (l1 & Hl1 & Hd1).
  destruct (body h p) as [[a|e] p']; simpl in *; [by exists l1 |].
  destruct (Hh e h p') as (l2 & Hl2 & Hd2). exists (l1 ++ l2)%list.
  rewrite Hl2, Hl1, app_assoc. split; [reflexivity | by apply Forall_app].
Qed.

(** Discharges [logs_debug m] for a statement whose only logging is through
    [logger_debug]. *)
Ltac debug_log :=
  repeat first
    [ progress intros
    | apply logs_debug_logger_debug
    | apply logs_debug_bind
    | apply logs_debug_try_except
    | match goal with |- logs_debug (if ?b then _ else _) => destruct b end
    | apply logs_debug_quiet; solve [frame] ].

Lemma fix_pandas_warnings_logs : logs_debug fix_pandas_warnings.
Proof. unfold fix_pandas_warnings, enter, filterwarnings. debug_log. Qed.

Lemma fix_asyncio_warnings_logs : logs_debug fix_asyncio_warnings.
Proof.
  unfold fix_asyncio_warnings, enter, platform_system_, asyncio_set_event_loop_policy_.
  debug_log.
Qed.

Lemma fix_binance_client_timeouts_logs : logs_debug fix_binance_client_timeouts.
Proof. unfold fix_binance_client_timeouts, enter, os_getenv, os_environ_set. debug_log. Qed.

Lemma fix_signal_calculations_logs : logs_debug fix_signal_calculations.
Proof. unfold fix_signal_calculations, enter, np_seterr_ignore. debug_log. Qed.

Lemma optimize_memory_usage_logs : logs_debug optimize_memory_usage.
Proof. unfold optimize_memory_usage, enter, gc_collect_, gc_set_threshold_. debug_log. Qed.

Lemma five_routines_logs h p :
  ∃ l, log (optimize_memory_usage h
             (fix_signal_calculations h
               (fix_binance_client_timeouts h
                 (fix_asyncio_warnings h
                   (fix_pandas_warnings h p).2).2).2).2).2
       = (log p ++ l)%list ∧ Forall is_debug l.
Proof.
  destruct (fix_pandas_warnings_logs h p) as (l1 & H1 & D1).
  destruct (fix_asyncio_warnings_logs h (fix_pandas_warnings h p).2) as (l2 & H2 & D2).
  destruct (fix_binance_client_timeouts_logs h
              (fix_asyncio_warnings h (fix_pandas_warnings h p).2).2) as (l3 & H3 & D3).
  destruct (fix_signal_calculations_logs h
              (fix_binance_client_timeouts h
                (fix_asyncio_warnings h (fix_pandas_warnings h p).2).2).2)
    as (l4 & H4 & D4).
  destruct (optimize_memory_usage_logs h
              (fix_signal_calculations h
                (fix_binance_client_timeouts h
                  (fix_asyncio_warnings h (fix_pandas_warnings h p).2).2).2).2)
    as (l5 & H5 & D5).
  exists (l1 ++ l2 ++ l3 ++ l4 ++ l5)%list. split.
  - rewrite H5, H4, H3, H2, H1. by rewrite <- !app_assoc.
  - repeat (apply Forall_app; split); assumption.
Qed.

(** ** Further properties of the module *)

(** X1. [apply_fixes] always ends by logging its success line at [INFO], and
    everything the five routines logged before it is at [DEBUG]: no record at
    [WARNING] is ever added, also on a host where routines failed inside. *)
Theorem apply_fixes_always_logs_success (h : Host) (p : Proc) :
  ∃ l, log (apply_fixes h p).2
       = (log p ++ l ++ [(INFO, "✅ All simple live fixes applied successfully")])%list
       ∧ Forall is_debug l.
Proof.
  destruct (five_routines_logs h p) as (l & Hl & Hd). exists l.
  rewrite apply_fixes_run. simpl. rewrite Hl, <- app_assoc. done.
Qed.

(** X2. [get_fix_status] is not an observer: it runs the five routines again,
    in the order of [apply_fixes], and leaves the process in the state
    [apply_fixes] would leave it in, short of the final [INFO] record. *)
Theorem get_fix_status_reapplies (h : Host) (p : Proc) :
  calls (get_fix_status h p).2 = (calls p ++ apply_order)%list ∧
  (apply_fixes h p).2
  = add_log (INFO, "✅ All simple live fixes applied successfully") (get_fix_status h p).2.
Proof.
  rewrite apply_fixes_run, get_fix_status_run. simpl. split; [| reflexivity].
  rewrite optimize_memory_usage_calls, fix_signal_calculations_calls,
    fix_binance_client_timeouts_calls, fix_asyncio_warnings_calls,
    fix_pandas_warnings_calls.
  unfold apply_order. by rewrite <- !app_assoc.
Qed.

(** X3. Of the environment, both entry points change what
    [fix_binance_client_timeouts] alone changes, and nothing else. *)
Theorem entry_points_environ (h : Host) (p : Proc) :
  environ (apply_fixes h p).2 = environ (fix_binance_client_timeouts h p).2 ∧
  environ (get_fix_status h p).2 = environ (fix_binance_client_timeouts h p).2.
Proof.
  rewrite apply_fixes_run, get_fix_status_run, fix_binance_client_timeouts_environ.
  simpl. by rewrite routines_environ.
Qed.

(** X4. Every one of the five routines is idempotent on the configuration:
    a second call right after the first changes no environment variable,
    warning filter, event-loop policy, numpy error mode or collector
    threshold. *)
Theorem routine_code_idempotent (r : routine) (h : Host) (p : Proc) :
  config (routine_code r h (routine_code r h p).2).2 = config (routine_code r h p).2.
Proof. rewrite !routine_code_config. apply adjust_idemp. Qed.

(** X5. [apply_fixes] is idempotent on the configuration. *)
Theorem apply_fixes_config_idempotent (h : Host) (p : Proc) :
  config (apply_fixes h (apply_fixes h p).2).2 = config (apply_fixes h p).2.
Proof. rewrite !apply_fixes_config. apply adjust_all_idemp. Qed.

(** X6. After [apply_fixes], a call of [get_fix_status] leaves the
    configuration as [apply_fixes] set it. *)
Theorem get_fix_status_keeps_config (h : Host) (p : Proc) :
  config (get_fix_status h (apply_fixes h p).2).2 = config (apply_fixes h p).2.
Proof. rewrite get_fix_status_config, !apply_fixes_config. apply adjust_all_idemp. Qed.

(** X7. The order of the five calls in [apply_fixes] does not matter for the
    configuration: the routines run in any other order give the same one. *)
Theorem routines_order_irrelevant (h : Host) (p : Proc) (rs : list routine) :
  rs ≡ₚ apply_order →
  config (run_routines rs h p).2 = config (apply_fixes h p).2.
Proof.
  intros Hperm. rewrite run_routines_config, apply_fixes_config.
  by apply adjust_all_perm.
Qed.

Lemma routines_order_irrelevant_witness :
  reverse apply_order ≡ₚ apply_order ∧
  config (run_routines (reverse apply_order) windows_partial (fresh_proc user_env)).2
  = config (apply_fixes windows_partial (fresh_proc user_env)).2.
Proof.
  split; [apply reverse_Permutation |].
  apply (routines_order_irrelevant windows_partial (fresh_proc user_env)).
  apply reverse_Permutation.
Defined.

(** X8. With numpy installed and [np.seterr] working,
    [fix_signal_calculations] sets the modes for division by zero and for
    invalid operations to 'ignore' and keeps those for overflow and
    underflow. *)
Theorem fix_signal_calculations_installed (h : Host) (p : Proc) :
  numpy h = Installed → faults h np_seterr = None →
  let s' := numpy_errstate (fix_signal_calculations h p).2 in
  err_divide s' = err_ignore ∧ err_invalid s' = err_ignore ∧
  err_over s' = err_over (numpy_errstate p) ∧
  err_under s' = err_under (numpy_errstate p).
Proof.
  intros Hnp Hok s'. subst s'.
  rewrite fix_signal_calculations_errstate. unfold signal_errstate.
  rewrite Hnp, Hok. done.
Qed.

Lemma fix_signal_calculations_installed_witness :
  numpy linux_numpy = Installed ∧ faults linux_numpy np_seterr = None ∧
  let s' := numpy_errstate (fix_signal_calculations linux_numpy (fresh_proc ∅)).2 in
  err_divide s' = err_ignore ∧ err_invalid s' = err_ignore ∧
  err_over s' = err_over (numpy_errstate (fresh_proc ∅)) ∧
  err_under s' = err_under (numpy_errstate (fresh_proc ∅)).
Proof.
  split; [reflexivity |]. split; [reflexivity |].
  apply (fix_signal_calculations_installed linux_numpy (fresh_proc ∅)); reflexivity.
Defined.

(** X9. If numpy cannot be imported, or [np.seterr] fails,
    [fix_signal_calculations] still returns and the numpy error modes are
    the ones they were. *)
Theorem fix_signal_calculations_failure (h : Host) (p : Proc) :
  numpy h ≠ Installed ∨ faults h np_seterr ≠ None →
  (fix_signal_calculations h p).1 = Returns () ∧
  numpy_errstate (fix_signal_calculations h p).2 = numpy_errstate p.
Proof.
  intros Hfail. split.
  - destruct (never_raises_unit _ fix_signal_calculations_returns h p) as [p' Hrun].
    by rewrite Hrun.
  - rewrite fix_signal_calculations_errstate. unfold signal_errstate.
    destruct (numpy h), (faults h np_seterr); try reflexivity.
    by destruct Hfail.
Qed.

Lemma fix_signal_calculations_failure_witness :
  (numpy windows_partial ≠ Installed ∨ faults windows_partial np_seterr ≠ None) ∧
  (fix_signal_calculations windows_partial (fresh_proc ∅)).1 = Returns () ∧
  numpy_errstate (fix_signal_calculations windows_partial (fresh_proc ∅)).2
  = numpy_errstate (fresh_proc ∅).
Proof.
  split; [right; discriminate |].
  apply (fix_signal_calculations_failure windows_partial (fresh_proc ∅)).
  right. discriminate.
Defined.

(** X10. When both collector calls work, [optimize_memory_usage] forces
    exactly one collection and sets the thresholds to (700, 10, 10). *)
Theorem optimize_memory_usage_effect (h : Host) (p : Proc) :
  faults h gc_collect = None → faults h gc_set_threshold = None →
  gc_threshold (optimize_memory_usage h p).2 = (700, 10, 10)%Z ∧
  gc_collections (optimize_memory_usage h p).2 = S (gc_collections p).
Proof.
  intros Hc Ht.
  unfold optimize_memory_usage, try_except, enter, gc_collect_, gc_set_threshold_, lib,
    logger_debug, modify, mbind, M_bind, mret, M_ret.
  rewrite Hc, Ht. done.
Qed.

Lemma optimize_memory_usage_effect_witness :
  faults bare_linux gc_collect = None ∧ faults bare_linux gc_set_threshold = None ∧
  gc_threshold (optimize_memory_usage bare_linux (fresh_proc ∅)).2 = (700, 10, 10)%Z ∧
  gc_collections (optimize_memory_usage bare_linux (fresh_proc ∅)).2
  = S (gc_collections (fresh_proc ∅)).
Proof.
  split; [reflexivity |]. split; [reflexivity |].
  apply (optimize_memory_usage_effect bare_linux (fresh_proc ∅)); reflexivity.
Defined.

(** X11. If [gc.collect()] fails, [optimize_memory_usage] does not reach
    [gc.set_threshold]: it returns with thresholds and collection count as
    they were, and the failure shows only as one [DEBUG] record carrying the
    exception's text. *)
Theorem optimize_memory_usage_collect_fails (h : Host) (p : Proc) (e : exn) :
  faults h gc_collect = Some e →
  (optimize_memory_usage h p).1 = Returns () ∧
  gc_threshold (optimize_memory_usage h p).2 = gc_threshold p ∧
  gc_collections (optimize_memory_usage h p).2 = gc_collections p ∧
  log (optimize_memory_usage h p).2
  = (log p ++ [(DEBUG, "⚠️ Failed to optimize memory usage: " +:+ str_exn e)])%list.
Proof.
  intros Hc.
  unfold optimize_memory_usage, try_except, enter, gc_collect_, gc_set_threshold_, lib,
    logger_debug, modify, mbind, M_bind, mret, M_ret.
  rewrite Hc. done.
Qed.

Lemma optimize_memory_usage_collect_fails_witness :
  faults linux_gc_broken gc_collect
  = Some (OtherException "RuntimeError" "gc unavailable") ∧
  (optimize_memory_usage linux_gc_broken (fresh_proc ∅)).1 = Returns () ∧
  gc_threshold (optimize_memory_usage linux_gc_broken (fresh_proc ∅)).2
  = gc_threshold (fresh_proc ∅) ∧
  gc_collections (optimize_memory_usage linux_gc_broken (fresh_proc ∅)).2
  = gc_collections (fresh_proc ∅) ∧
  log (optimize_memory_usage linux_gc_broken (fresh_proc ∅)).2
  = (log (fresh_proc ∅)
     ++ [(DEBUG, "⚠️ Failed to optimize memory usage: "
                 +:+ str_exn (OtherException "RuntimeError" "gc unavailable"))])%list.
Proof.
  split; [reflexivity |].
  apply (optimize_memory_usage_collect_fails linux_gc_broken (fresh_proc ∅)).
  reflexivity.
Defined.

(** X12. [fix_asyncio_warnings] changes the event-loop policy only on
    Windows and only when asyncio has the proactor policy, and then the new
    policy is the proactor policy. *)
Theorem fix_asyncio_warnings_policy_change (h : Host) (p : Proc) :
  event_loop_policy (fix_asyncio_warnings h p).2 ≠ event_loop_policy p →
  system_name h = "Windows" ∧
  has_WindowsProactorEventLoopPolicy h = true ∧
  event_loop_policy (fix_asyncio_warnings h p).2 = WindowsProactorEventLoopPolicy.
Proof.
  rewrite fix_asyncio_warnings_policy. unfold asyncio_policy.
  destruct (faults h platform_system); [done |].
  destruct (decide (system_name h = "Windows")); [| done].
  destruct (has_WindowsProactorEventLoopPolicy h); [| done].
  destruct (faults h asyncio_set_event_loop_policy); done.
Qed.

Lemma fix_asyncio_warnings_policy_change_witness :
  event_loop_policy (fix_asyncio_warnings windows_partial (fresh_proc ∅)).2
  ≠ event_loop_policy (fresh_proc ∅) ∧
  system_name windows_partial = "Windows" ∧
  has_WindowsProactorEventLoopPolicy windows_partial = true ∧
  event_loop_policy (fix_asyncio_warnings windows_partial (fresh_proc ∅)).2
  = WindowsProactorEventLoopPolicy.
Proof.
  split; [discriminate |].
  apply (fix_asyncio_warnings_policy_change windows_partial (fresh_proc ∅)).
  discriminate.
Defined.

(** X13. On Windows, with the proactor policy present and the two library
    calls working, [fix_asyncio_warnings] selects the proactor policy and
    logs that it did. *)
Theorem fix_asyncio_warnings_windows (h : Host) (p : Proc) :
  system_name h = "Windows" → has_WindowsProactorEventLoopPolicy h = true →
  faults h platform_system = None → faults h asyncio_set_event_loop_policy = None →
  event_loop_policy (fix_asyncio_warnings h p).2 = WindowsProactorEventLoopPolicy ∧
  log (fix_asyncio_warnings h p).2
  = (log p ++ [(DEBUG, "✅ Windows asyncio event loop policy set")])%list.
Proof.
  intros Hsys Hattr Hps Hset.
  unfold fix_asyncio_warnings, try_except, enter, platform_system_,
    asyncio_set_event_loop_policy_, lib, ask, logger_debug, modify,
    mbind, M_bind, mret, M_ret.
  rewrite Hps. simpl. rewrite Hsys. simpl. rewrite Hattr, Hset. done.
Qed.

Lemma fix_asyncio_warnings_windows_witness :
  system_name windows_partial = "Windows" ∧
  has_WindowsProactorEventLoopPolicy windows_partial = true ∧
  faults windows_partial platform_system = None ∧
  faults windows_partial asyncio_set_event_loop_policy = None ∧
  event_loop_policy (fix_asyncio_warnings windows_partial (fresh_proc ∅)).2
  = WindowsProactorEventLoopPolicy ∧
  log (fix_asyncio_warnings windows_partial (fresh_proc ∅)).2
  = (log (fresh_proc ∅) ++ [(DEBUG, "✅ Windows asyncio event loop policy set")])%list.
Proof.
  do 4 (split; [reflexivity |]).
  apply (fix_asyncio_warnings_windows windows_partial (fresh_proc ∅)); reflexivity.
Defined.



